(** * tasklib/lazy.py: LazyUUIDTask and LazyUUIDTaskSet

    A shallow embedding of [src/tasklib/lazy.py].  Python exceptions are
    the [exn] type, backend round trips are recorded in a trace of [call]s,
    and every method runs in a small state/error/trace monad over the
    object it mutates.  A Python [set] of UUID strings is a duplicate-free
    list whose order is the set's iteration order. *)

From Stdlib Require Import String List Bool ZArith.
From Stdlib Require Import ListDec Lia.
Import ListNotations.
Open Scope string_scope.
Open Scope list_scope.

(** ** Exceptions and backend calls *)

Inductive exn :=
| KeyError (k : string)
| TypeError
| AttributeError
| DoesNotExist (u : string).

Inductive call :=
| CGet (u : string)      (** [tw.tasks.get(uuid=u)] *)
| CFilter (q : string).  (** [tw.tasks.filter(q)] *)

(** ** A state / error / trace monad *)

Definition M (S A : Type) := S -> (exn + A) * S * list call.

Definition ret {S A} (a : A) : M S A := fun s => (inr a, s, []).

Definition bind {S A B} (m : M S A) (k : A -> M S B) : M S B :=
  fun s =>
    match m s with
    | (inl e, s', c) => (inl e, s', c)
    | (inr a, s', c) =>
        match k a s' with (r, s'', c') => (r, s'', c ++ c') end
    end.

Definition raise {S A} (e : exn) : M S A := fun s => (inl e, s, []).
Definition get {S} : M S S := fun s => (inr s, s, []).
Definition put {S} (s' : S) : M S unit := fun _ => (inr tt, s', []).

(** [try: m except e: h e] *)
Definition catch {S A} (m : M S A) (h : exn -> M S A) : M S A :=
  fun s =>
    match m s with
    | (inl e, s', c) =>
        match h e s' with (r, s'', c') => (r, s'', c ++ c') end
    | ok => ok
    end.

(** A computation on another object, run for its result and its calls. *)
Definition lift {S A} (r : (exn + A) * list call) : M S A :=
  fun s => (fst r, s, snd r).

Notation "x <- m ;; k" := (bind m (fun x => k))
  (at level 61, m at next level, right associativity).

(** ** Python sets of strings *)

Module PySet.

Definition mem (x : string) (l : list string) : bool :=
  existsb (String.eqb x) l.

(** [s.add(x)] *)
Definition add (x : string) (l : list string) : list string :=
  if mem x l then l else l ++ [x].

(** [set(iterable)] *)
Definition of_list (l : list string) : list string :=
  fold_left (fun acc x => add x acc) l [].

(** [a | b], [a & b], [a - b], [a ^ b] *)
Definition union (a b : list string) : list string :=
  fold_left (fun acc x => add x acc) b a.
Definition inter (a b : list string) : list string :=
  filter (fun x => mem x b) a.
Definition diff (a b : list string) : list string :=
  filter (fun x => negb (mem x b)) a.
Definition symdiff (a b : list string) : list string :=
  diff a b ++ diff b a.

(** [a == b] *)
Definition eqb (a b : list string) : bool :=
  forallb (fun x => mem x b) a && forallb (fun x => mem x a) b.

(** [s.remove(x)]: [None] is the [KeyError] case. *)
Definition remove (x : string) (l : list string) : option (list string) :=
  if mem x l then Some (filter (fun y => negb (String.eqb x y)) l) else None.

End PySet.

(** ** The backend and the Task objects it returns *)

(** A [Task] as seen by the lazy layer: its data dictionary and the four
    properties read with [getattr(..., default)] ([None] when absent). *)
Record TaskObj := mkTaskObj {
  t_data : list (string * string);
  t_completed : option bool;
  t_modified : option bool;
  t_saved : option bool;
  t_modified_fields : option (list string)
}.

(** [tw.tasks]: [get] fails with [DoesNotExist] when it returns [None];
    [qs_attrs] are the attribute names a [TaskQuerySet] resolves. *)
Record Store := mkStore {
  tasks_get : string -> option TaskObj;
  tasks_filter : string -> list TaskObj;
  qs_attrs : list string
}.

Record TaskQuerySet := mkQS { qs_query : string; qs_tasks : list TaskObj }.

Fixpoint assoc (k : string) (d : list (string * string)) : option string :=
  match d with
  | [] => None
  | (k', v) :: d' => if String.eqb k k' then Some v else assoc k d'
  end.

(** ** LazyUUIDTask *)

Record LazyUUIDTask := mkLazyUUIDTask { uuid : string; content : option TaskObj }.

(** [LazyUUIDTask(tw, uuid)] *)
Definition LazyUUIDTask_init (u : string) : LazyUUIDTask :=
  {| uuid := u; content := None |}.

(** [getattr(self.content, name, default)]; [getattr(None, ...)] is the default. *)
Definition getattr_default {A} (c : option TaskObj) (f : TaskObj -> option A)
    (default : A) : A :=
  match c with
  | None => default
  | Some t => match f t with Some v => v | None => default end
  end.

Section WithStore.
Variable tw : Store.

(** [self.content = self._tw.tasks.get(uuid=self.uuid)] *)
Definition task_refresh : M LazyUUIDTask unit :=
  fun t =>
    match tasks_get tw (uuid t) with
    | Some c => (inr tt, {| uuid := uuid t; content := Some c |}, [CGet (uuid t)])
    | None => (inl (DoesNotExist (uuid t)), t, [CGet (uuid t)])
    end.

(** [__getitem__] *)
Definition task_getitem (key : string) : M LazyUUIDTask string :=
  if String.eqb key "uuid" then t <- get ;; ret (uuid t)
  else
    _ <- task_refresh ;;
    t <- get ;;
    match content t with
    | None => raise TypeError
    | Some c =>
        match assoc key (t_data c) with
        | Some v => ret v
        | None => raise (KeyError key)
        end
    end.

Definition task_completed : M LazyUUIDTask bool :=
  _ <- task_refresh ;; t <- get ;; ret (getattr_default (content t) t_completed false).

Definition task_modified : M LazyUUIDTask bool :=
  _ <- task_refresh ;; t <- get ;; ret (getattr_default (content t) t_modified false).

Definition task_saved : M LazyUUIDTask bool :=
  _ <- task_refresh ;; t <- get ;; ret (getattr_default (content t) t_saved true).

(** [_modified_fields]: as in the source, without [self.refresh()]; it
    never reaches the backend, so it does not take the store. *)
Definition task_modified_fields : M LazyUUIDTask (list string) :=
  t <- get ;; ret (getattr_default (content t) t_modified_fields []).

End WithStore.

(** Operands of comparisons and set algebra: a [LazyUUIDTask], a [Task]
    (a subscriptable record with its data dictionary) or a value that is
    not subscriptable at all. *)
Inductive pyval :=
| PLazyTask (t : LazyUUIDTask)
| PRecord (d : list (string * string))
| PNotSubscriptable.

(** ** LazyUUIDTaskSet *)

(** Attribute names a lazy set resolves without [__getattr__]: its
    instance dictionary, the methods of the class body (with [__hash__],
    set to [None] because [__eq__] is defined) and those inherited from
    [object]. *)
Definition LazyUUIDTaskSet_attrs : list string :=
  [ "_tw"; "_uuids";
    "__init__"; "__getattr__"; "__repr__"; "__eq__"; "__ne__";
    "__contains__"; "__len__"; "__iter__"; "__sub__"; "__isub__";
    "__rsub__"; "__or__"; "__ior__"; "__ror__"; "__xor__"; "__ixor__";
    "__rxor__"; "__and__"; "__iand__"; "__rand__"; "__le__"; "__ge__";
    "issubset"; "issuperset"; "union"; "intersection"; "difference";
    "symmetric_difference"; "update"; "intersection_update";
    "difference_update"; "symmetric_difference_update"; "add"; "remove";
    "pop"; "clear"; "refresh"; "__hash__"; "__dict__"; "__weakref__";
    "__module__"; "__doc__";
    "__class__"; "__new__"; "__setattr__"; "__delattr__";
    "__getattribute__"; "__str__"; "__format__"; "__reduce__";
    "__reduce_ex__"; "__sizeof__"; "__dir__"; "__init_subclass__";
    "__subclasshook__"; "__lt__"; "__gt__"; "__getstate__" ].

(** The object behind a [LazyUUIDTaskSet] reference: still lazy, or
    swapped in place ([__class__] and [__dict__]) for a [TaskQuerySet]. *)
Inductive SetObj :=
| SLazy (uuids : list string)
| SMaterialized (qs : TaskQuerySet).

(** A resolved attribute: the class it was found on and its name. *)
Inductive attrval := Bound (cls : string) (name : string).

(** [LazyUUIDTaskSet(tw, uuids)]: [self._uuids = set(uuids)] *)
Definition LazyUUIDTaskSet_init (uuids : list string) : list string :=
  PySet.of_list uuids.

(** [__iter__] *)
Definition set_iter (uuids : list string) : list pyval :=
  map (fun u => PLazyTask (LazyUUIDTask_init u)) uuids.

(** [__len__], and [len] of the collection once materialized. *)
Definition set_len (uuids : list string) : nat := length uuids.

Definition obj_len (s : SetObj) : nat :=
  match s with
  | SLazy uuids => set_len uuids
  | SMaterialized qs => length (qs_tasks qs)
  end.

Section WithStore2.
Variable tw : Store.

(** [v[key]] on an operand.  On a [LazyUUIDTask] this runs its
    [__getitem__]; the operand is not threaded back, which is faithful
    for the key ["uuid"], the only one the lazy layer subscripts. *)
Definition val_getitem (key : string) (v : pyval) : (exn + string) * list call :=
  match v with
  | PLazyTask t =>
      match task_getitem tw key t with (r, _, c) => (r, c) end
  | PRecord d =>
      (match assoc key d with Some x => inr x | None => inl (KeyError key) end, [])
  | PNotSubscriptable => (inl TypeError, [])
  end.

(** [LazyUUIDTask.__eq__] *)
Definition task_eq (other : pyval) : M LazyUUIDTask bool :=
  catch
    (a <- task_getitem tw "uuid" ;;
     b <- lift (val_getitem "uuid" other) ;;
     ret (String.eqb a b))
    (fun e => match e with KeyError _ => ret false | _ => raise e end).

(** [t['uuid'] for t in other], stopping at the first exception. *)
Fixpoint extract_uuids (other : list pyval) : (exn + list string) * list call :=
  match other with
  | [] => (inr [], [])
  | v :: rest =>
      match val_getitem "uuid" v with
      | (inl e, c) => (inl e, c)
      | (inr u, c) =>
          match extract_uuids rest with
          | (inl e, c') => (inl e, c ++ c')
          | (inr us, c') => (inr (u :: us), c ++ c')
          end
      end
  end.

(** [set(t['uuid'] for t in other)] *)
Definition other_uuids {S} (other : list pyval) : M S (list string) :=
  us <- lift (extract_uuids other) ;; ret (PySet.of_list us).

(** The methods of a lazy set run with [self._uuids] as state. *)

Definition set_eq (other : list pyval) : M (list string) bool :=
  us <- other_uuids other ;; ids <- get ;; ret (PySet.eqb us ids).

Definition set_contains (task : pyval) : M (list string) bool :=
  u <- lift (val_getitem "uuid" task) ;; ids <- get ;; ret (PySet.mem u ids).

Definition set_union (other : list pyval) : M (list string) (list string) :=
  us <- other_uuids other ;; ids <- get ;; ret (PySet.union ids us).

Definition set_intersection (other : list pyval) : M (list string) (list string) :=
  us <- other_uuids other ;; ids <- get ;; ret (PySet.inter ids us).

Definition set_difference (other : list pyval) : M (list string) (list string) :=
  us <- other_uuids other ;; ids <- get ;; ret (PySet.diff ids us).

Definition set_symmetric_difference (other : list pyval) : M (list string) (list string) :=
  us <- other_uuids other ;; ids <- get ;; ret (PySet.symdiff ids us).

(** [__rsub__]: [set(t['uuid'] for t in other) - self._uuids] *)
Definition set_rsub (other : list pyval) : M (list string) (list string) :=
  us <- other_uuids other ;; ids <- get ;; ret (PySet.diff us ids).

Definition set_add (task : pyval) : M (list string) unit :=
  u <- lift (val_getitem "uuid" task) ;; ids <- get ;; put (PySet.add u ids).

Definition set_remove (task : pyval) : M (list string) unit :=
  u <- lift (val_getitem "uuid" task) ;;
  ids <- get ;;
  match PySet.remove u ids with
  | Some ids' => put ids'
  | None => raise (KeyError u)
  end.

(** [self._uuids.pop()]: removes the first element in iteration order. *)
Definition set_pop : M (list string) string :=
  ids <- get ;;
  match ids with
  | [] => raise (KeyError "pop from an empty set")
  | x :: rest => _ <- put rest ;; ret x
  end.

Definition set_clear : M (list string) unit := put [].

(** Attribute lookup on a [TaskQuerySet]. *)
Definition qs_lookup (name : string) : M SetObj attrval :=
  if PySet.mem name (qs_attrs tw) then ret (Bound "TaskQuerySet" name)
  else raise AttributeError.

(** [LazyUUIDTaskSet.refresh]: one [filter] call with the identifiers
    joined by a space, then the in-place swap. *)
Definition set_refresh (uuids : list string) : M SetObj unit :=
  fun _ =>
    let q := String.concat " " uuids in
    (inr tt, SMaterialized {| qs_query := q; qs_tasks := tasks_filter tw q |},
     [CFilter q]).

(** [LazyUUIDTaskSet.__getattr__] *)
Definition set_getattr_hook (name : string) : M SetObj attrval :=
  if String.prefix "__" name then raise AttributeError
  else
    s <- get ;;
    match s with
    | SLazy uuids => _ <- set_refresh uuids ;; qs_lookup name
    | SMaterialized _ => qs_lookup name
    end.

(** [getattr(obj, name)]: normal lookup first, [__getattr__] only when it
    fails; after the swap the object is a [TaskQuerySet]. *)
Definition getattr_obj (name : string) : M SetObj attrval :=
  s <- get ;;
  match s with
  | SLazy _ =>
      if PySet.mem name LazyUUIDTaskSet_attrs
      then ret (Bound "LazyUUIDTaskSet" name)
      else set_getattr_hook name
  | SMaterialized _ => qs_lookup name
  end.

(** [__ne__]: [not (self == other)] *)
Definition set_ne (other : list pyval) : M (list string) bool :=
  b <- set_eq other ;; ret (negb b).

(** Building the list [[e for x in xs]] of [all([...])]: every element is
    evaluated in order and the first exception aborts. *)
Fixpoint seq_bools (rs : list ((exn + bool) * list call)) : (exn + list bool) * list call :=
  match rs with
  | [] => (inr [], [])
  | (inl e, c) :: _ => (inl e, c)
  | (inr b, c) :: rs' =>
      match seq_bools rs' with
      | (inl e, c') => (inl e, c ++ c')
      | (inr bs, c') => (inr (b :: bs), c ++ c')
      end
  end.

(** [task in other] for [other] a lazy set: its [__contains__]. *)
Definition in_lazy_set (other : list string) (v : pyval) : (exn + bool) * list call :=
  match set_contains v other with (r, _, c) => (r, c) end.

(** [issubset(other)] for [other] a lazy set:
    [all([task in other for task in self])] *)
Definition set_issubset (other : list string) : M (list string) bool :=
  ids <- get ;;
  bs <- lift (seq_bools (map (in_lazy_set other) (set_iter ids))) ;;
  ret (forallb (fun b => b) bs).

(** [issuperset(other)]: [all([task in self for task in other])] *)
Definition set_issuperset (other : list pyval) : M (list string) bool :=
  ids <- get ;;
  bs <- lift (seq_bools (map (in_lazy_set ids) other)) ;;
  ret (forallb (fun b => b) bs).

(** [__le__], [__ge__] *)
Definition set_le (other : list string) := set_issubset other.
Definition set_ge (other : list pyval) := set_issuperset other.

(** The in-place forms: [self._uuids op= set(...)]; [return self] is the
    object itself, i.e. the state. *)
Definition set_update (other : list pyval) : M (list string) unit :=
  us <- other_uuids other ;; ids <- get ;; put (PySet.union ids us).

Definition set_intersection_update (other : list pyval) : M (list string) unit :=
  us <- other_uuids other ;; ids <- get ;; put (PySet.inter ids us).

Definition set_difference_update (other : list pyval) : M (list string) unit :=
  us <- other_uuids other ;; ids <- get ;; put (PySet.diff ids us).

Definition set_symmetric_difference_update (other : list pyval) : M (list string) unit :=
  us <- other_uuids other ;; ids <- get ;; put (PySet.symdiff ids us).

(** The operators: [__sub__], [__or__], [__ror__], [__xor__], [__rxor__],
    [__and__], [__rand__] call the named methods on [self]. *)
Definition set_sub (other : list pyval) := set_difference other.
Definition set_or (other : list pyval) := set_union other.
Definition set_ror (other : list pyval) := set_union other.
Definition set_xor (other : list pyval) := set_symmetric_difference other.
Definition set_rxor (other : list pyval) := set_symmetric_difference other.
Definition set_and (other : list pyval) := set_intersection other.
Definition set_rand (other : list pyval) := set_intersection other.

End WithStore2.

(** [LazyUUIDTask.__hash__]: [hash(self.uuid)] for Python's string hash. *)
Definition task_hash (py_hash : string -> Z) (t : LazyUUIDTask) : Z :=
  py_hash (uuid t).

(** ** Facts about the Python set model *)

Module PySetFacts.
Import PySet.

Lemma mem_In x l : mem x l = true <-> In x l.
Proof.
  unfold mem; rewrite existsb_exists; split.
  - intros (y & Hy & E). apply String.eqb_eq in E; subst; exact Hy.
  - intros H. exists x; split; [exact H | apply String.eqb_refl].
Qed.

Lemma mem_false x l : mem x l = false <-> ~ In x l.
Proof.
  rewrite <- mem_In. destruct (mem x l); split; congruence.
Qed.

Lemma add_In x y l : In y (add x l) <-> y = x \/ In y l.
Proof.
  unfold add. case_eq (mem x l); intros E.
  - apply mem_In in E. split; [tauto|]. intros [->|H]; assumption.
  - rewrite in_app_iff; simpl. split.
    + intros [H|[H|[]]]; auto.
    + intros [->|H]; auto.
Qed.

Lemma add_NoDup x l : NoDup l -> NoDup (add x l).
Proof.
  intros H. unfold add. case_eq (mem x l); intros E; [exact H|].
  apply mem_false in E.
  apply NoDup_app; [exact H | constructor; [intros []|constructor] |].
  intros a Ha [<-|[]]. exact (E Ha).
Qed.

Lemma fold_add_In b a y :
  In y (fold_left (fun acc x => add x acc) b a) <-> In y a \/ In y b.
Proof.
  revert a; induction b as [|x b IH]; intros a; simpl.
  - tauto.
  - rewrite IH, add_In. split.
    + intros [[->|H]|H]; auto.
    + intros [H|[->|H]]; auto.
Qed.

Lemma fold_add_NoDup b a :
  NoDup a -> NoDup (fold_left (fun acc x => add x acc) b a).
Proof.
  revert a; induction b as [|x b IH]; intros a Ha; simpl; auto using add_NoDup.
Qed.

Lemma of_list_In l y : In y (of_list l) <-> In y l.
Proof. unfold of_list. rewrite fold_add_In. simpl. tauto. Qed.

Lemma of_list_NoDup l : NoDup (of_list l).
Proof. apply fold_add_NoDup. constructor. Qed.

Lemma union_In a b y : In y (union a b) <-> In y a \/ In y b.
Proof. apply fold_add_In. Qed.

Lemma union_NoDup a b : NoDup a -> NoDup (union a b).
Proof. apply fold_add_NoDup. Qed.

Lemma inter_In a b y : In y (inter a b) <-> In y a /\ In y b.
Proof. unfold inter. rewrite filter_In, mem_In. tauto. Qed.

Lemma diff_In a b y : In y (diff a b) <-> In y a /\ ~ In y b.
Proof.
  unfold diff. rewrite filter_In, negb_true_iff, mem_false. tauto.
Qed.

Lemma symdiff_In a b y :
  In y (symdiff a b) <-> (In y a /\ ~ In y b) \/ (In y b /\ ~ In y a).
Proof. unfold symdiff. rewrite in_app_iff, !diff_In. tauto. Qed.

Lemma symdiff_NoDup a b : NoDup a -> NoDup b -> NoDup (symdiff a b).
Proof.
  intros Ha Hb. unfold symdiff, diff.
  apply NoDup_app; try (apply NoDup_filter; assumption).
  intros y H1 H2.
  apply (proj1 (diff_In a b y)) in H1. apply (proj1 (diff_In b a y)) in H2.
  tauto.
Qed.

Lemma mem_ext a b x : (forall y, In y a <-> In y b) -> mem x a = mem x b.
Proof.
  intros H. case_eq (mem x b); intros E.
  - apply mem_In, H, mem_In in E. exact E.
  - apply mem_false in E. apply mem_false. intros Hx. apply E, H, Hx.
Qed.

Lemma remove_In x l y l' :
  remove x l = Some l' -> (In y l' <-> In y l /\ y <> x).
Proof.
  unfold remove. destruct (mem x l); intros E; inversion E; subst.
  rewrite filter_In, negb_true_iff, String.eqb_neq.
  split; intros [H1 H2]; split; auto; intros ->; apply H2; reflexivity.
Qed.

End PySetFacts.

(** ** A concrete backend *)

Module Sample.

Definition t1 : TaskObj :=
  mkTaskObj [("uuid", "u1"); ("description", "write spec")]
    (Some true) None (Some false) (Some ["description"]).

Definition tw1 : Store :=
  mkStore (fun u => if String.eqb u "u1" then Some t1 else None)
          (fun _ => [t1])
          ["filter"; "get"; "count"; "__getitem__"; "__len__"].

Example getitem_uuid_ex :
  task_getitem tw1 "uuid" (LazyUUIDTask_init "u1")
  = (inr "u1", LazyUUIDTask_init "u1", []).
Proof. reflexivity. Qed.

Example getitem_description_ex :
  task_getitem tw1 "description" (LazyUUIDTask_init "u1")
  = (inr "write spec", mkLazyUUIDTask "u1" (Some t1), [CGet "u1"]).
Proof. reflexivity. Qed.

Example completed_ex :
  task_completed tw1 (LazyUUIDTask_init "u1")
  = (inr true, mkLazyUUIDTask "u1" (Some t1), [CGet "u1"]).
Proof. reflexivity. Qed.

Example completed_missing_ex :
  task_completed tw1 (LazyUUIDTask_init "u9")
  = (inl (DoesNotExist "u9"), LazyUUIDTask_init "u9", [CGet "u9"]).
Proof. reflexivity. Qed.

Example union_ex :
  set_union tw1 (set_iter ["u2"; "u3"]) ["u1"; "u2"]
  = (inr ["u1"; "u2"; "u3"], ["u1"; "u2"], []).
Proof. reflexivity. Qed.

Example rsub_ex :
  set_rsub tw1 (set_iter ["u2"; "u3"]) ["u1"; "u2"]
  = (inr ["u3"], ["u1"; "u2"], []).
Proof. reflexivity. Qed.

Example getattr_count_ex :
  getattr_obj tw1 "count" (SLazy ["u1"; "u2"])
  = (inr (Bound "TaskQuerySet" "count"),
     SMaterialized (mkQS "u1 u2" [t1]), [CFilter "u1 u2"]).
Proof. vm_compute. reflexivity. Qed.

Example pop_empty_ex :
  set_pop [] = (inl (KeyError "pop from an empty set"), [], []).
Proof. reflexivity. Qed.

End Sample.

(** ** Lemmas about the operations *)

Section Facts.
Variable tw : Store.

Lemma val_getitem_uuid v :
  val_getitem tw "uuid" v
  = (match v with
     | PLazyTask t => inr (uuid t)
     | PRecord d =>
         match assoc "uuid" d with Some x => inr x | None => inl (KeyError "uuid") end
     | PNotSubscriptable => inl TypeError
     end, []).
Proof. destruct v; reflexivity. Qed.

Lemma val_getitem_uuid_calls v : snd (val_getitem tw "uuid" v) = [].
Proof. rewrite val_getitem_uuid. reflexivity. Qed.

Lemma extract_uuids_calls other : snd (extract_uuids tw other) = [].
Proof.
  induction other as [|v rest IH]; [reflexivity|].
  simpl. rewrite val_getitem_uuid.
  destruct v as [t|d|]; simpl.
  - destruct (extract_uuids tw rest) as [[e|us] c]; simpl in *; subst; reflexivity.
  - destruct (assoc "uuid" d); [|reflexivity].
    destruct (extract_uuids tw rest) as [[e|us] c]; simpl in *; subst; reflexivity.
  - reflexivity.
Qed.

Lemma extract_set_iter l : extract_uuids tw (set_iter l) = (inr l, []).
Proof.
  induction l as [|u l IH]; [reflexivity|].
  simpl. rewrite IH. reflexivity.
Qed.

Lemma other_uuids_set_iter {S} (s : S) B :
  other_uuids tw (set_iter B) s = (inr (PySet.of_list B), s, []).
Proof.
  unfold other_uuids, bind, lift. rewrite extract_set_iter. reflexivity.
Qed.

(** The three refreshing accessors fetch once and read the fetched record;
    a failed fetch propagates. *)
Lemma accessors_refresh_then_read t c :
  tasks_get tw (uuid t) = Some c ->
  let t' := mkLazyUUIDTask (uuid t) (Some c) in
  task_completed tw t = (inr (getattr_default (Some c) t_completed false), t', [CGet (uuid t)])
  /\ task_modified tw t = (inr (getattr_default (Some c) t_modified false), t', [CGet (uuid t)])
  /\ task_saved tw t = (inr (getattr_default (Some c) t_saved true), t', [CGet (uuid t)]).
Proof.
  intros H. unfold task_completed, task_modified, task_saved, bind, task_refresh, get, ret.
  rewrite H. repeat split.
Qed.

Lemma accessors_fetch_failure t :
  tasks_get tw (uuid t) = None ->
  task_completed tw t = (inl (DoesNotExist (uuid t)), t, [CGet (uuid t)])
  /\ task_modified tw t = (inl (DoesNotExist (uuid t)), t, [CGet (uuid t)])
  /\ task_saved tw t = (inl (DoesNotExist (uuid t)), t, [CGet (uuid t)]).
Proof.
  intros H. unfold task_completed, task_modified, task_saved, bind, task_refresh.
  rewrite H. repeat split.
Qed.

End Facts.

(** ** Claims *)

(** C1 (code_bug).  [_modified_fields] does not call [self.refresh()],
    unlike [completed], [modified] and [saved]: on a lazy task it reads
    [getattr(None, '_modified_fields', set())], so it returns the empty set
    with no backend call, whatever the stored record holds. *)
Theorem modified_fields_skips_refresh :
  (forall u,
     task_modified_fields (LazyUUIDTask_init u) = (inr [], LazyUUIDTask_init u, []))
  /\ tasks_get Sample.tw1 "u1" = Some Sample.t1
  /\ t_modified_fields Sample.t1 = Some ["description"]
  /\ task_modified_fields (LazyUUIDTask_init "u1")
     = (inr [], LazyUUIDTask_init "u1", []).
Proof. repeat split. Qed.

(** C2 (counterexample).  Comparing a task with an operand that is not
    subscriptable raises [TypeError]: only [KeyError] is caught. *)
Lemma task_eq_raises_TypeError :
  task_eq Sample.tw1 PNotSubscriptable (LazyUUIDTask_init "u1")
  = (inl TypeError, LazyUUIDTask_init "u1", []).
Proof. reflexivity. Qed.

(** C2 (amended).  [LazyUUIDTask.__eq__] answers false exactly when
    extracting the operand's ["uuid"] raises [KeyError], and propagates any
    other exception; [LazyUUIDTaskSet.__eq__] has no guard and propagates
    every exception raised while extracting identifiers.  Neither makes a
    backend call or changes the object. *)
Theorem eq_catches_only_KeyError :
  forall tw,
  (forall t other,
     task_eq tw other t
     = (match fst (val_getitem tw "uuid" other) with
        | inr b => inr (String.eqb (uuid t) b)
        | inl (KeyError _) => inr false
        | inl e => inl e
        end, t, []))
  /\ (forall ids other,
     set_eq tw other ids
     = (match fst (extract_uuids tw other) with
        | inl e => inl e
        | inr us => inr (PySet.eqb (PySet.of_list us) ids)
        end, ids, [])).
Proof.
  intros tw; split.
  - intros [u c] other.
    destruct other as [t|d|]; [reflexivity| |reflexivity].
    unfold task_eq, catch, bind, lift, val_getitem. simpl.
    destruct (assoc "uuid" d); reflexivity.
  - intros ids other. pose proof (extract_uuids_calls tw other) as Hc.
    unfold set_eq, other_uuids, bind, lift, get, ret.
    destruct (extract_uuids tw other) as [[e|us] c]; simpl in *; subst; reflexivity.
Qed.

(** C7.  Two references to the same identifier are equal, in either
    order and whatever their materialization state, and hash the same. *)
Theorem task_eq_hash_same_uuid :
  forall tw (py_hash : string -> Z) u c1 c2,
  task_eq tw (PLazyTask (mkLazyUUIDTask u c2)) (mkLazyUUIDTask u c1)
  = (inr true, mkLazyUUIDTask u c1, [])
  /\ task_eq tw (PLazyTask (mkLazyUUIDTask u c1)) (mkLazyUUIDTask u c2)
     = (inr true, mkLazyUUIDTask u c2, [])
  /\ task_hash py_hash (mkLazyUUIDTask u c1) = task_hash py_hash (mkLazyUUIDTask u c2).
Proof.
  intros. cbn. rewrite String.eqb_refl. repeat split.
Qed.

(** C8.  [task['uuid']] returns the identifier with no backend call and
    leaves the task unchanged, lazy or materialized. *)
Theorem getitem_uuid_no_call :
  forall tw u c,
  task_getitem tw "uuid" (LazyUUIDTask_init u) = (inr u, LazyUUIDTask_init u, [])
  /\ task_getitem tw "uuid" (mkLazyUUIDTask u c) = (inr u, mkLazyUUIDTask u c, []).
Proof. repeat split. Qed.

(** C3 (counterexample).  Indexing is a capability of the materialized
    [TaskQuerySet], but the name [__getitem__] is refused by the dunder
    guard of [__getattr__]: no [filter] call, the set stays lazy. *)
Lemma getattr_getitem_stays_lazy :
  PySet.mem "__getitem__" (qs_attrs Sample.tw1) = true
  /\ getattr_obj Sample.tw1 "__getitem__" (SLazy ["u1"; "u2"])
     = (inl AttributeError, SLazy ["u1"; "u2"], []).
Proof. vm_compute. split; reflexivity. Qed.

(** C3 (amended).  Looking up on a lazy set a name it does not define and
    that does not start with ["__"] makes exactly one [filter] call, with
    the identifiers joined by one space in the set's iteration order,
    swaps the object for the returned collection and resolves the name
    there; later lookups and [len] go to that collection with no further
    backend call. *)
Theorem getattr_materializes_once :
  forall tw ids name,
  PySet.mem name LazyUUIDTaskSet_attrs = false ->
  String.prefix "__" name = false ->
  let q := String.concat " " ids in
  let s' := SMaterialized (mkQS q (tasks_filter tw q)) in
  getattr_obj tw name (SLazy ids)
  = (if PySet.mem name (qs_attrs tw) then inr (Bound "TaskQuerySet" name)
     else inl AttributeError, s', [CFilter q])
  /\ (forall name',
        getattr_obj tw name' s'
        = (if PySet.mem name' (qs_attrs tw) then inr (Bound "TaskQuerySet" name')
           else inl AttributeError, s', []))
  /\ obj_len s' = length (tasks_filter tw q).
Proof.
  intros tw ids name Hattr Hdunder q s'.
  split; [|split; [|reflexivity]].
  - unfold getattr_obj, bind, get. cbv beta iota. rewrite Hattr.
    unfold set_getattr_hook. rewrite Hdunder.
    unfold bind, get, set_refresh, qs_lookup. cbv beta iota zeta.
    destruct (PySet.mem name (qs_attrs tw)); reflexivity.
  - intros name'. unfold getattr_obj, bind, get, qs_lookup. cbv beta iota.
    destruct (PySet.mem name' (qs_attrs tw)); reflexivity.
Qed.

Lemma getattr_materializes_once_witness :
  PySet.mem "count" LazyUUIDTaskSet_attrs = false
  /\ String.prefix "__" "count" = false
  /\ getattr_obj Sample.tw1 "count" (SLazy ["u1"; "u2"])
     = (inr (Bound "TaskQuerySet" "count"),
        SMaterialized (mkQS "u1 u2" [Sample.t1]), [CFilter "u1 u2"]).
Proof.
  assert (H1 : PySet.mem "count" LazyUUIDTaskSet_attrs = false) by (vm_compute; reflexivity).
  assert (H2 : String.prefix "__" "count" = false) by (vm_compute; reflexivity).
  split; [exact H1|]. split; [exact H2|].
  exact (proj1 (getattr_materializes_once Sample.tw1 ["u1"; "u2"] "count" H1 H2)).
Defined.

(** C4 (counterexample).  A dunder name the class defines, such as
    [__len__], resolves normally instead of failing. *)
Lemma getattr_len_resolves :
  getattr_obj Sample.tw1 "__len__" (SLazy ["u1"])
  = (inr (Bound "LazyUUIDTaskSet" "__len__"), SLazy ["u1"], []).
Proof. vm_compute. reflexivity. Qed.

(** C4 (amended).  Looking up a dunder name on a lazy set never
    materializes it and makes no backend call: a name the class or object
    defines resolves normally, any other fails with [AttributeError]; the
    set is left unchanged. *)
Theorem getattr_dunder_stays_lazy :
  forall tw ids name,
  String.prefix "__" name = true ->
  getattr_obj tw name (SLazy ids)
  = (if PySet.mem name LazyUUIDTaskSet_attrs
     then inr (Bound "LazyUUIDTaskSet" name) else inl AttributeError,
     SLazy ids, []).
Proof.
  intros tw ids name Hdunder.
  unfold getattr_obj, bind, get. cbv beta iota.
  destruct (PySet.mem name LazyUUIDTaskSet_attrs); [reflexivity|].
  unfold set_getattr_hook. rewrite Hdunder. reflexivity.
Qed.

Lemma getattr_dunder_stays_lazy_witness :
  String.prefix "__" "__getitem__" = true
  /\ getattr_obj Sample.tw1 "__getitem__" (SLazy ["u1"; "u2"])
     = (inl AttributeError, SLazy ["u1"; "u2"], []).
Proof.
  assert (H : String.prefix "__" "__getitem__" = true) by (vm_compute; reflexivity).
  split; [exact H|].
  rewrite (getattr_dunder_stays_lazy Sample.tw1 ["u1"; "u2"] "__getitem__" H).
  vm_compute. reflexivity.
Defined.

(** C5.  With both operands lazy sets, union, intersection, difference and
    symmetric difference return a new duplicate-free identifier set equal
    to the mathematical operation on the two identifier sets; no backend
    call is made and the receiver is unchanged. *)
Theorem set_algebra_on_ids :
  forall tw A B,
  NoDup A ->
  (exists U, set_union tw (set_iter B) A = (inr U, A, [])
     /\ NoDup U /\ forall x, In x U <-> In x A \/ In x B)
  /\ (exists I, set_intersection tw (set_iter B) A = (inr I, A, [])
     /\ NoDup I /\ forall x, In x I <-> In x A /\ In x B)
  /\ (exists D, set_difference tw (set_iter B) A = (inr D, A, [])
     /\ NoDup D /\ forall x, In x D <-> In x A /\ ~ In x B)
  /\ (exists X, set_symmetric_difference tw (set_iter B) A = (inr X, A, [])
     /\ NoDup X /\ forall x, In x X <-> (In x A /\ ~ In x B) \/ (In x B /\ ~ In x A)).
Proof.
  intros tw A B HA.
  unfold set_union, set_intersection, set_difference, set_symmetric_difference.
  unfold bind at 1 3 5 7. rewrite !other_uuids_set_iter.
  cbn [bind get ret app].
  repeat split.
  - eexists; split; [reflexivity|]. split.
    + apply PySetFacts.union_NoDup, HA.
    + intros x. rewrite PySetFacts.union_In, PySetFacts.of_list_In. tauto.
  - eexists; split; [reflexivity|]. split.
    + apply NoDup_filter, HA.
    + intros x. rewrite PySetFacts.inter_In, PySetFacts.of_list_In. tauto.
  - eexists; split; [reflexivity|]. split.
    + apply NoDup_filter, HA.
    + intros x. rewrite PySetFacts.diff_In, PySetFacts.of_list_In. tauto.
  - eexists; split; [reflexivity|]. split.
    + apply PySetFacts.symdiff_NoDup; [exact HA | apply PySetFacts.of_list_NoDup].
    + intros x. rewrite PySetFacts.symdiff_In, !PySetFacts.of_list_In. tauto.
Qed.

Lemma set_algebra_on_ids_witness :
  NoDup ["u1"; "u2"]
  /\ set_union Sample.tw1 (set_iter ["u2"; "u3"]) ["u1"; "u2"]
     = (inr ["u1"; "u2"; "u3"], ["u1"; "u2"], []).
Proof.
  assert (H : NoDup ["u1"; "u2"]).
  { constructor; [simpl; intros [E|[]]; discriminate | constructor; [intros []|constructor]]. }
  split; [exact H|].
  destruct (set_algebra_on_ids Sample.tw1 ["u1"; "u2"] ["u2"; "u3"] H)
    as [[U [E _]] _].
  rewrite E. vm_compute in E. injection E as <-. reflexivity.
Defined.

(** C6.  [other - S] for a lazy set [S] is the set of identifiers
    extracted from [other] minus those of [S]. *)
Theorem rsub_is_other_minus_self :
  forall tw S other l c,
  extract_uuids tw other = (inr l, c) ->
  exists R, set_rsub tw other S = (inr R, S, c)
    /\ NoDup R /\ forall x, In x R <-> In x l /\ ~ In x S.
Proof.
  intros tw S other l c H.
  unfold set_rsub, other_uuids, bind, lift, get, ret. rewrite H. cbn.
  eexists; split; [rewrite !app_nil_r; reflexivity|]. split.
  - apply NoDup_filter, PySetFacts.of_list_NoDup.
  - intros x. rewrite PySetFacts.diff_In, PySetFacts.of_list_In. tauto.
Qed.

Lemma rsub_is_other_minus_self_witness :
  extract_uuids Sample.tw1 (set_iter ["u2"; "u3"]) = (inr ["u2"; "u3"], [])
  /\ set_rsub Sample.tw1 (set_iter ["u2"; "u3"]) ["u1"; "u2"] = (inr ["u3"], ["u1"; "u2"], []).
Proof.
  assert (H : extract_uuids Sample.tw1 (set_iter ["u2"; "u3"]) = (inr ["u2"; "u3"], []))
    by reflexivity.
  split; [exact H|].
  destruct (rsub_is_other_minus_self Sample.tw1 ["u1"; "u2"] _ _ _ H) as [R [E _]].
  rewrite E. vm_compute in E. injection E as <-. reflexivity.
Defined.

(** C9.  [remove] of a record whose identifier is absent raises
    [KeyError] of that identifier and [pop] on an empty set raises
    [KeyError]; both leave the identifier set unchanged.  Otherwise
    [remove] drops exactly that identifier and [pop] returns one
    identifier and drops it; no backend call is made. *)
Theorem remove_pop_errors :
  forall tw ids task u,
  fst (val_getitem tw "uuid" task) = inr u ->
  (~ In u ids -> set_remove tw task ids = (inl (KeyError u), ids, []))
  /\ (In u ids -> exists ids', set_remove tw task ids = (inr tt, ids', [])
        /\ forall y, In y ids' <-> In y ids /\ y <> u)
  /\ set_pop [] = (inl (KeyError "pop from an empty set"), [], [])
  /\ (forall x rest, set_pop (x :: rest) = (inr x, rest, [])).
Proof.
  intros tw ids task u Hu.
  assert (Hv : val_getitem tw "uuid" task = (inr u, [])).
  { rewrite (surjective_pairing (val_getitem tw "uuid" task)), Hu,
      val_getitem_uuid_calls. reflexivity. }
  unfold set_remove, bind, lift, get. rewrite Hv. cbn [fst snd app].
  repeat split.
  - intros Hn. apply PySetFacts.mem_false in Hn.
    unfold PySet.remove. rewrite Hn. reflexivity.
  - intros Hi. case_eq (PySet.remove u ids).
    + intros ids' E. exists ids'. split; [reflexivity|].
      intros y. apply PySetFacts.remove_In, E.
    + unfold PySet.remove. apply PySetFacts.mem_In in Hi. rewrite Hi. discriminate.
Qed.

Lemma remove_pop_errors_witness :
  fst (val_getitem Sample.tw1 "uuid" (PLazyTask (LazyUUIDTask_init "u3"))) = inr "u3"
  /\ set_remove Sample.tw1 (PLazyTask (LazyUUIDTask_init "u3")) ["u1"; "u2"]
     = (inl (KeyError "u3"), ["u1"; "u2"], []).
Proof.
  assert (H : fst (val_getitem Sample.tw1 "uuid" (PLazyTask (LazyUUIDTask_init "u3")))
              = inr "u3") by reflexivity.
  split; [exact H|].
  apply (remove_pop_errors Sample.tw1 ["u1"; "u2"] _ _ H).
  simpl. intros [E|[E|[]]]; discriminate.
Defined.

(** C10.  [set(uuids)] removes duplicates: the stored identifiers have no
    duplicate and the same members as the input, [len] is the number of
    distinct input identifiers, [in] tests membership in the input and
    iteration yields one reference per stored identifier, all with no
    backend call. *)
Theorem init_dedups :
  forall tw l,
  let s := LazyUUIDTaskSet_init l in
  NoDup s
  /\ (forall x, In x s <-> In x l)
  /\ set_len s = length (nodup string_dec l)
  /\ (forall u, set_contains tw (PLazyTask (LazyUUIDTask_init u)) s
                = (inr (PySet.mem u l), s, []))
  /\ extract_uuids tw (set_iter s) = (inr s, []).
Proof.
  intros tw l s.
  assert (Hnd : NoDup s) by apply PySetFacts.of_list_NoDup.
  assert (Hin : forall x, In x s <-> In x l) by (intros; apply PySetFacts.of_list_In).
  split; [exact Hnd|]. split; [exact Hin|]. split; [|split].
  - unfold set_len. apply Nat.le_antisymm; apply NoDup_incl_length.
    + exact Hnd.
    + intros x Hx. apply nodup_In, Hin, Hx.
    + apply NoDup_nodup.
    + intros x Hx. apply Hin, (nodup_In string_dec), Hx.
  - intros u. unfold set_contains, bind, lift, get, ret. cbn.
    rewrite (PySetFacts.mem_ext s l u Hin). reflexivity.
  - apply extract_set_iter.
Qed.

(** ** Further properties of lazy.py *)

Module MoreFacts.

Lemma eqb_iff a b : PySet.eqb a b = true <-> (forall x, In x a <-> In x b).
Proof.
  unfold PySet.eqb. rewrite andb_true_iff, !forallb_forall. split.
  - intros [H1 H2] x. split; intros Hx.
    + apply PySetFacts.mem_In, H1, Hx.
    + apply PySetFacts.mem_In, H2, Hx.
  - intros H. split; intros x Hx; apply PySetFacts.mem_In, H, Hx.
Qed.

Lemma forallb_mem_incl a b : forallb (fun x => PySet.mem x b) a = true <-> incl a b.
Proof.
  rewrite forallb_forall. split.
  - intros H x Hx. apply PySetFacts.mem_In, H, Hx.
  - intros H x Hx. apply PySetFacts.mem_In, H, Hx.
Qed.

Lemma seq_bools_in_lazy tw other ids :
  seq_bools (map (in_lazy_set tw other) (set_iter ids))
  = (inr (map (fun x => PySet.mem x other) ids), []).
Proof.
  induction ids as [|u ids IH]; [reflexivity|].
  simpl. rewrite IH. reflexivity.
Qed.

Lemma forallb_map_id (f : string -> bool) l :
  forallb (fun b => b) (map f l) = forallb f l.
Proof. induction l as [|x l IH]; simpl; [reflexivity|]. rewrite IH. reflexivity. Qed.

Lemma filter_neq_notin u l :
  ~ In u l -> filter (fun y => negb (String.eqb u y)) l = l.
Proof.
  induction l as [|x l IH]; intros Hn; [reflexivity|].
  simpl. assert (E : String.eqb u x = false).
  { apply String.eqb_neq. intros ->. apply Hn. left; reflexivity. }
  rewrite E. simpl. rewrite IH; [reflexivity|]. intros H. apply Hn. right; exact H.
Qed.

Lemma val_uuid_ok tw v u :
  fst (val_getitem tw "uuid" v) = inr u -> val_getitem tw "uuid" v = (inr u, []).
Proof.
  intros H. rewrite (surjective_pairing (val_getitem tw "uuid" v)), H,
    val_getitem_uuid_calls. reflexivity.
Qed.

Lemma task_eq_state tw other t : snd (fst (task_eq tw other t)) = t.
Proof.
  destruct t as [u c].
  destruct other as [t'|d|]; [reflexivity| |reflexivity].
  unfold task_eq, catch, bind, lift, val_getitem. simpl.
  destruct (assoc "uuid" d); reflexivity.
Qed.

End MoreFacts.

(** [task[key]] for a key other than ["uuid"] fetches the record from the
    backend every time, even on a task already materialized, stores it
    and reads the key from it ([KeyError] when absent); a failed fetch
    raises [DoesNotExist] and leaves the task as it was. *)
Theorem getitem_other_key_fetches :
  forall tw key t,
  key <> "uuid" ->
  task_getitem tw key t
  = match tasks_get tw (uuid t) with
    | Some c =>
        (match assoc key (t_data c) with Some v => inr v | None => inl (KeyError key) end,
         mkLazyUUIDTask (uuid t) (Some c), [CGet (uuid t)])
    | None => (inl (DoesNotExist (uuid t)), t, [CGet (uuid t)])
    end.
Proof.
  intros tw key t Hk. apply String.eqb_neq in Hk.
  unfold task_getitem. rewrite Hk.
  unfold bind, task_refresh, get, ret, raise. cbv beta iota.
  destruct (tasks_get tw (uuid t)) as [c|]; [|reflexivity].
  cbn. destruct (assoc key (t_data c)); reflexivity.
Qed.

Lemma getitem_other_key_fetches_witness :
  "description" <> "uuid"
  /\ task_getitem Sample.tw1 "description" (mkLazyUUIDTask "u1" (Some Sample.t1))
     = (inr "write spec", mkLazyUUIDTask "u1" (Some Sample.t1), [CGet "u1"]).
Proof.
  assert (H : "description" <> "uuid") by discriminate.
  split; [exact H|].
  rewrite (getitem_other_key_fetches Sample.tw1 _ _ H). reflexivity.
Defined.

(** [completed], [modified] and [saved] fetch the record on every call,
    whatever the task's state, and read it with their defaults; a failed
    fetch raises [DoesNotExist] and leaves the task unchanged. *)
Theorem accessors_fetch_every_time :
  forall tw t,
  match tasks_get tw (uuid t) with
  | Some c =>
      let t' := mkLazyUUIDTask (uuid t) (Some c) in
      task_completed tw t = (inr (getattr_default (Some c) t_completed false), t', [CGet (uuid t)])
      /\ task_modified tw t = (inr (getattr_default (Some c) t_modified false), t', [CGet (uuid t)])
      /\ task_saved tw t = (inr (getattr_default (Some c) t_saved true), t', [CGet (uuid t)])
  | None =>
      task_completed tw t = (inl (DoesNotExist (uuid t)), t, [CGet (uuid t)])
      /\ task_modified tw t = (inl (DoesNotExist (uuid t)), t, [CGet (uuid t)])
      /\ task_saved tw t = (inl (DoesNotExist (uuid t)), t, [CGet (uuid t)])
  end.
Proof.
  intros tw t. case_eq (tasks_get tw (uuid t)).
  - intros c H. exact (accessors_refresh_then_read tw t c H).
  - intros H. exact (accessors_fetch_failure tw t H).
Qed.

(** No operation of a [LazyUUIDTask] changes its identifier: after any
    [__getitem__], [completed], [modified], [saved] or [__eq__], with or
    without an exception, [uuid] is the one it was built with. *)
Theorem task_uuid_never_changes :
  forall tw t key other,
  uuid (snd (fst (task_getitem tw key t))) = uuid t
  /\ uuid (snd (fst (task_completed tw t))) = uuid t
  /\ uuid (snd (fst (task_modified tw t))) = uuid t
  /\ uuid (snd (fst (task_saved tw t))) = uuid t
  /\ uuid (snd (fst (task_eq tw other t))) = uuid t.
Proof.
  intros tw t key other.
  pose proof (accessors_fetch_every_time tw t) as Hacc.
  destruct (tasks_get tw (uuid t)) as [c|] eqn:Hg;
    destruct Hacc as (H1 & H2 & H3); rewrite H1, H2, H3.
  all: split; [|repeat split].
  all: try (destruct (String.eqb key "uuid") eqn:Ek;
    [apply String.eqb_eq in Ek; subst; reflexivity
    |apply String.eqb_neq in Ek; rewrite (getitem_other_key_fetches tw key t Ek), Hg;
     try destruct (assoc key (t_data c)); reflexivity]).
  all: rewrite MoreFacts.task_eq_state; reflexivity.
Qed.

(** [_modified_fields] reads whatever record the task holds: after a
    successful [completed] it is the fetched record's value (or the empty
    default), with the single fetch that [completed] made. *)
Theorem modified_fields_after_completed :
  forall tw t,
  (_ <- task_completed tw ;; task_modified_fields) t
  = match tasks_get tw (uuid t) with
    | Some c => (inr (getattr_default (Some c) t_modified_fields []),
                 mkLazyUUIDTask (uuid t) (Some c), [CGet (uuid t)])
    | None => (inl (DoesNotExist (uuid t)), t, [CGet (uuid t)])
    end.
Proof.
  intros tw t.
  pose proof (accessors_fetch_every_time tw t) as Hacc.
  unfold bind at 1.
  destruct (tasks_get tw (uuid t)) as [c|];
    destruct Hacc as (H1 & _ & _); rewrite H1; reflexivity.
Qed.

(** The in-place methods [update], [intersection_update],
    [difference_update] and [symmetric_difference_update] leave in the set
    exactly the identifiers the pure method returns, with the same backend
    calls; when extracting an identifier from the operand raises, the set
    is left unchanged. *)
Theorem in_place_matches_pure :
  forall tw other ids,
  let inplace (pure : M (list string) (list string)) :=
    match pure ids with
    | (inr r, _, c) => (inr tt, r, c)
    | (inl e, _, c) => (inl e, ids, c)
    end in
  set_update tw other ids = inplace (set_union tw other)
  /\ set_intersection_update tw other ids = inplace (set_intersection tw other)
  /\ set_difference_update tw other ids = inplace (set_difference tw other)
  /\ set_symmetric_difference_update tw other ids
     = inplace (set_symmetric_difference tw other).
Proof.
  intros tw other ids inplace. unfold inplace.
  unfold set_update, set_intersection_update, set_difference_update,
    set_symmetric_difference_update, set_union, set_intersection,
    set_difference, set_symmetric_difference, other_uuids, bind, lift, get, put, ret.
  destruct (extract_uuids tw other) as [[e|us] c]; cbn; repeat split.
Qed.



(** [add] of a record with identifier [u] puts [u] in the set without a
    duplicate and with no backend call; [u in s] is then true, and adding
    it again changes nothing. *)
Theorem add_then_contains :
  forall tw ids v u,
  fst (val_getitem tw "uuid" v) = inr u ->
  NoDup ids ->
  let ids' := PySet.add u ids in
  set_add tw v ids = (inr tt, ids', [])
  /\ NoDup ids'
  /\ (forall y, In y ids' <-> y = u \/ In y ids)
  /\ set_contains tw v ids' = (inr true, ids', [])
  /\ set_add tw v ids' = (inr tt, ids', []).
Proof.
  intros tw ids v u Hu Hnd ids'.
  pose proof (MoreFacts.val_uuid_ok tw v u Hu) as Hv.
  assert (Hin : In u ids') by (apply PySetFacts.add_In; left; reflexivity).
  unfold set_add, set_contains, bind, lift, get, put, ret. rewrite Hv. cbn [fst snd app].
  split; [reflexivity|]. split; [apply PySetFacts.add_NoDup, Hnd|].
  split; [intros y; apply PySetFacts.add_In|].
  apply PySetFacts.mem_In in Hin. rewrite Hin. split; [reflexivity|].
  unfold PySet.add at 1. rewrite Hin. reflexivity.
Qed.

Lemma add_then_contains_witness :
  fst (val_getitem Sample.tw1 "uuid" (PLazyTask (LazyUUIDTask_init "u3"))) = inr "u3"
  /\ NoDup ["u1"; "u2"]
  /\ set_add Sample.tw1 (PLazyTask (LazyUUIDTask_init "u3")) ["u1"; "u2"]
     = (inr tt, ["u1"; "u2"; "u3"], []).
Proof.
  assert (H1 : fst (val_getitem Sample.tw1 "uuid" (PLazyTask (LazyUUIDTask_init "u3")))
               = inr "u3") by reflexivity.
  assert (H2 : NoDup ["u1"; "u2"]).
  { constructor; [simpl; intros [E|[]]; discriminate | constructor; [intros []|constructor]]. }
  split; [exact H1|]. split; [exact H2|].
  exact (proj1 (add_then_contains Sample.tw1 _ _ _ H1 H2)).
Defined.

(** [add] then [remove] of a record whose identifier was absent gives
    back exactly the original identifier set. *)
Theorem add_remove_roundtrip :
  forall tw ids v u,
  fst (val_getitem tw "uuid" v) = inr u ->
  ~ In u ids ->
  (_ <- set_add tw v ;; set_remove tw v) ids = (inr tt, ids, []).
Proof.
  intros tw ids v u Hu Hn.
  pose proof (MoreFacts.val_uuid_ok tw v u Hu) as Hv.
  unfold set_add, set_remove, bind, lift, get, put, ret. rewrite Hv. cbn [fst snd app].
  assert (Hm : PySet.mem u ids = false) by (apply PySetFacts.mem_false, Hn).
  unfold PySet.add. rewrite Hm.
  assert (Hm' : PySet.mem u (ids ++ [u]) = true).
  { apply PySetFacts.mem_In, in_app_iff. right; left; reflexivity. }
  unfold PySet.remove. rewrite Hm', filter_app, (MoreFacts.filter_neq_notin u ids Hn).
  simpl. rewrite String.eqb_refl. simpl. rewrite app_nil_r. reflexivity.
Qed.

Lemma add_remove_roundtrip_witness :
  fst (val_getitem Sample.tw1 "uuid" (PLazyTask (LazyUUIDTask_init "u3"))) = inr "u3"
  /\ ~ In "u3" ["u1"; "u2"]
  /\ (_ <- set_add Sample.tw1 (PLazyTask (LazyUUIDTask_init "u3")) ;;
      set_remove Sample.tw1 (PLazyTask (LazyUUIDTask_init "u3"))) ["u1"; "u2"]
     = (inr tt, ["u1"; "u2"], []).
Proof.
  assert (H1 : fst (val_getitem Sample.tw1 "uuid" (PLazyTask (LazyUUIDTask_init "u3")))
               = inr "u3") by reflexivity.
  assert (H2 : ~ In "u3" ["u1"; "u2"]) by (simpl; intros [E|[E|[]]]; discriminate).
  split; [exact H1|]. split; [exact H2|].
  exact (add_remove_roundtrip Sample.tw1 _ _ _ H1 H2).
Defined.

(** [A <= B] ([issubset]) against a lazy set [B] is true exactly when every
    identifier of [A] is in [B], and [A >= B] ([issuperset]) over the
    iteration of a lazy set [B] exactly when every identifier of [B] is in
    [A]; neither makes a backend call or changes [A]. *)
Theorem subset_superset_lazy :
  forall tw A B,
  (exists b, set_le tw B A = (inr b, A, []) /\ (b = true <-> incl A B))
  /\ (exists b, set_ge tw (set_iter B) A = (inr b, A, []) /\ (b = true <-> incl B A)).
Proof.
  intros tw A B. split.
  - eexists. split.
    + unfold set_le, set_issubset, bind, get, lift, ret.
      rewrite MoreFacts.seq_bools_in_lazy. reflexivity.
    + rewrite MoreFacts.forallb_map_id. apply MoreFacts.forallb_mem_incl.
  - eexists. split.
    + unfold set_ge, set_issuperset, bind, get, lift, ret.
      rewrite MoreFacts.seq_bools_in_lazy. reflexivity.
    + rewrite MoreFacts.forallb_map_id. apply MoreFacts.forallb_mem_incl.
Qed.

(** [A == B] for lazy sets is true exactly when they hold the same
    identifiers, whatever their order, and [A != B] is its negation; no
    backend call is made. *)
Theorem eq_ne_lazy_sets :
  forall tw A B,
  exists b, set_eq tw (set_iter B) A = (inr b, A, [])
    /\ set_ne tw (set_iter B) A = (inr (negb b), A, [])
    /\ (b = true <-> forall x, In x A <-> In x B).
Proof.
  intros tw A B.
  exists (PySet.eqb (PySet.of_list B) A).
  unfold set_ne, set_eq, bind. rewrite !other_uuids_set_iter.
  split; [reflexivity|]. split; [reflexivity|].
  rewrite MoreFacts.eqb_iff. split; intros H x.
  - rewrite <- (PySetFacts.of_list_In B x). symmetry. apply H.
  - rewrite (PySetFacts.of_list_In B x). symmetry. apply H.
Qed.

(** [pop] on a non-empty set returns one of its identifiers and removes
    it: the rest holds every other identifier and one fewer element.
    After [clear], [pop] raises [KeyError]. *)
Theorem pop_removes_one :
  forall ids,
  NoDup ids -> ids <> [] ->
  (exists x rest, set_pop ids = (inr x, rest, [])
     /\ In x ids /\ ~ In x rest
     /\ (forall y, In y rest <-> In y ids /\ y <> x)
     /\ set_len rest = set_len ids - 1)
  /\ (_ <- set_clear ;; set_pop) ids
     = (inl (KeyError "pop from an empty set"), [], []).
Proof.
  intros ids Hnd Hne. split; [|reflexivity].
  destruct ids as [|x rest]; [congruence|].
  inversion Hnd as [|? ? Hx Hr]; subst.
  exists x, rest. split; [reflexivity|].
  split; [left; reflexivity|]. split; [exact Hx|]. split.
  - intros y. simpl. split.
    + intros Hy. split; [right; exact Hy|]. intros ->. exact (Hx Hy).
    + intros [[->|Hy] Hneq]; [congruence|exact Hy].
  - unfold set_len. simpl. lia.
Qed.

Lemma pop_removes_one_witness :
  NoDup ["u1"; "u2"] /\ ["u1"; "u2"] <> []
  /\ set_pop ["u1"; "u2"] = (inr "u1", ["u2"], []).
Proof.
  assert (H1 : NoDup ["u1"; "u2"]).
  { constructor; [simpl; intros [E|[]]; discriminate | constructor; [intros []|constructor]]. }
  assert (H2 : ["u1"; "u2"] <> []) by discriminate.
  split; [exact H1|]. split; [exact H2|].
  destruct (pop_removes_one _ H1 H2) as [[x [rest [E _]]] _].
  rewrite E. vm_compute in E. injection E as <- <-. reflexivity.
Defined.



(** The reflected operators [other | S], [other & S] and [other ^ S] give
    the union, intersection and symmetric difference of the identifiers
    extracted from [other] and those of [S]; [S - other] keeps the
    identifiers of [S] not in [other]. *)
Theorem reflected_operators :
  forall tw S other l c,
  extract_uuids tw other = (inr l, c) ->
  (exists R, set_ror tw other S = (inr R, S, c) /\ forall x, In x R <-> In x l \/ In x S)
  /\ (exists R, set_rand tw other S = (inr R, S, c) /\ forall x, In x R <-> In x l /\ In x S)
  /\ (exists R, set_rxor tw other S = (inr R, S, c)
        /\ forall x, In x R <-> (In x l /\ ~ In x S) \/ (In x S /\ ~ In x l))
  /\ (exists R, set_sub tw other S = (inr R, S, c) /\ forall x, In x R <-> In x S /\ ~ In x l).
Proof.
  intros tw S other l c H.
  unfold set_ror, set_rand, set_rxor, set_sub, set_union, set_intersection,
    set_symmetric_difference, set_difference, other_uuids, bind, lift, get, ret.
  rewrite H. cbn. rewrite !app_nil_r.
  repeat split; eexists; (split; [reflexivity|]); intros x.
  - rewrite PySetFacts.union_In, PySetFacts.of_list_In. tauto.
  - rewrite PySetFacts.inter_In, PySetFacts.of_list_In. tauto.
  - rewrite PySetFacts.symdiff_In, PySetFacts.of_list_In. tauto.
  - rewrite PySetFacts.diff_In, PySetFacts.of_list_In. tauto.
Qed.

Lemma reflected_operators_witness :
  extract_uuids Sample.tw1 (set_iter ["u2"; "u3"]) = (inr ["u2"; "u3"], [])
  /\ set_ror Sample.tw1 (set_iter ["u2"; "u3"]) ["u1"; "u2"]
     = (inr ["u1"; "u2"; "u3"], ["u1"; "u2"], []).
Proof.
  assert (H : extract_uuids Sample.tw1 (set_iter ["u2"; "u3"]) = (inr ["u2"; "u3"], []))
    by reflexivity.
  split; [exact H|].
  destruct (reflected_operators Sample.tw1 ["u1"; "u2"] _ _ _ H) as [[R [E _]] _].
  rewrite E. vm_compute in E. injection E as <-. reflexivity.
Defined.
